(** * The transaction API of the admin dashboard

    A shallow embedding of [src/app/api/transactions/route.ts]: the three
    request handlers [GET], [POST] and [DELETE] of the [/transactions]
    route, the row normaliser used by [GET], and the properties of the
    specification that concern them.

    The handlers talk to a hosted database through the Supabase client.
    That client is not part of the repository, so a handler is embedded as
    a small interaction program ([action]): it either answers, or issues one
    store call and continues with whatever the store replies.  A handler
    that answers without a store call is literally a [Return]. *)

From Stdlib Require Import String List ZArith Bool.
From Stdlib Require Import Floats.SpecFloat.
From stdpp Require Import base option gmap strings.
Import ListNotations.

Set Warnings "-register-all".
Local Open Scope string_scope.

(** ** JavaScript values *)

Module JS.

(** A JavaScript number is an IEEE 754 double.  [spec_float] is the
    Standard Library's inductive description of such numbers; [Math.abs]
    and unary minus are [SFabs] and [SFopp], both exact. *)
Definition number := spec_float.

(** The values a handler manipulates: what [JSON.parse] produces, plus
    [undefined].  An object is a finite map from property names to values. *)
Inductive value :=
| VUndefined
| VNull
| VBool (b : bool)
| VNum (x : number)
| VStr (s : string)
| VArr (xs : list value)
| VObj (props : gmap string value).

(** An object literal [{ k1: v1, ..., kn: vn }] with distinct keys. *)
Definition obj (l : list (string * value)) : value := VObj (list_to_map l).

(** [ToBoolean]: the falsy values are [undefined], [null], [false], [+0],
    [-0], [NaN] and the empty string. *)
Definition ToBoolean (v : value) : bool :=
  match v with
  | VUndefined | VNull => false
  | VBool b => b
  | VNum (S754_zero _) | VNum S754_nan => false
  | VNum _ => true
  | VStr s => negb (String.eqb s "")
  | VArr _ | VObj _ => true
  end.

(** [!v] *)
Definition not (v : value) : bool := negb (ToBoolean v).

(** [a || b] *)
Definition or (a b : value) : value := if ToBoolean a then a else b.

(** [v === "s"] for a string literal [s] *)
Definition strict_eq_string (v : value) (s : string) : bool :=
  match v with
  | VStr s' => String.eqb s' s
  | _ => false
  end.

(** Property access [v[k]] (or [v.k]).  [None] stands for the [TypeError]
    raised on [undefined] and [null].  On an object the property is looked
    up, a missing one reads as [undefined].  On the other values the result
    is [undefined]: this is exact for every property name the route uses,
    none of which is a built-in property of a string, a number, a boolean
    or an array. *)
Definition prop (props : gmap string value) (k : string) : value :=
  default VUndefined (props !! k).

Definition get (v : value) (k : string) : option value :=
  match v with
  | VUndefined | VNull => None
  | VObj props => Some (prop props k)
  | VBool _ | VNum _ | VStr _ | VArr _ => Some VUndefined
  end.

(** A field typed [string | null] or [number | null], as a value. *)
Definition string_or_null (x : option string) : value :=
  match x with Some s => VStr s | None => VNull end.

Definition number_or_null (x : option number) : value :=
  match x with Some n => VNum n | None => VNull end.

(** [Number(x)] applied to a number is the identity. *)
Definition Number (x : number) : number := x.

(** [Math.abs] *)
Definition Math_abs (x : number) : number := SFabs x.

(** Unary minus *)
Definition neg (x : number) : number := SFopp x.

(** The integer [z] as a double, for examples ([m * 2^0]). *)
Definition of_Z (z : Z) : number :=
  match z with
  | Z0 => S754_zero false
  | Zpos p => S754_finite false p 0
  | Zneg p => S754_finite true p 0
  end.

End JS.

Import JS.

(** ** The Supabase client, as far as the route uses it *)

(** The error object of a failed store call.  [message] is interpolated
    into the answer; the other fields are passed on unchanged. *)
Record PostgrestError := {
  message : string;
  details : value;
  hint : value;
  code : value
}.

(** [{ data, error }] of a call whose data is an arbitrary JSON value. *)
Record PostgrestResponse := {
  data : value;
  error : option PostgrestError
}.

(** [{ error, count }] of a [delete()]. *)
Record DeleteResponse := {
  deleteError : option PostgrestError;
  count : value
}.

(** The two clients exported by [@/lib/supabase]. *)
Inductive Client := supabase | supabaseAdmin.

(** ** The flat rows of [get_all_transactions] *)

Module Row.

(** [type TransactionRPCResult] of [GET] *)
Record TransactionRPCResult := {
  id : string;
  anggota_id : string;
  tipe_transaksi : string;
  source_type : option string;
  deskripsi : option string;
  jumlah : number;
  sebelum : number;
  sesudah : number;
  pembiayaan_id : option string;
  tabungan_id : option string;
  created_at : string;
  updated_at : string;
  anggota_nama : option string;
  anggota_nomor_rekening : option string;
  tabungan_saldo : option number;
  tabungan_jenis_id : option string;
  tabungan_jenis_nama : option string;
  tabungan_jenis_kode : option string;
  pembiayaan_jumlah : option number;
  pembiayaan_sisa : option number;
  pembiayaan_jenis : option string
}.

(** The row [item] with another stored amount. *)
Definition with_jumlah (x : number) (item : TransactionRPCResult)
  : TransactionRPCResult :=
  {| id := id item;
     anggota_id := anggota_id item;
     tipe_transaksi := tipe_transaksi item;
     source_type := source_type item;
     deskripsi := deskripsi item;
     jumlah := x;
     sebelum := sebelum item;
     sesudah := sesudah item;
     pembiayaan_id := pembiayaan_id item;
     tabungan_id := tabungan_id item;
     created_at := created_at item;
     updated_at := updated_at item;
     anggota_nama := anggota_nama item;
     anggota_nomor_rekening := anggota_nomor_rekening item;
     tabungan_saldo := tabungan_saldo item;
     tabungan_jenis_id := tabungan_jenis_id item;
     tabungan_jenis_nama := tabungan_jenis_nama item;
     tabungan_jenis_kode := tabungan_jenis_kode item;
     pembiayaan_jumlah := pembiayaan_jumlah item;
     pembiayaan_sisa := pembiayaan_sisa item;
     pembiayaan_jenis := pembiayaan_jenis item |}.

End Row.

Abbreviation TransactionRPCResult := Row.TransactionRPCResult.

(** [{ data, error }] of [rpc("get_all_transactions")] *)
Record RowsResponse := {
  rows : option (list TransactionRPCResult);
  rowsError : option PostgrestError
}.

(** The arguments of [rpc("add_transaction", { ... })] *)
Record AddTransactionParams := {
  p_anggota_id : value;
  p_tipe_transaksi : value;
  p_source_type : value;
  p_jumlah : value;
  p_deskripsi : value;
  p_jenis_tabungan_id : value;
  p_pembiayaan_id : value
}.

(** ** Requests, responses and handler programs *)

(** A request: its body as [request.json()] yields it ([None] when the
    body is not JSON and the call throws) and the query parameters of its
    URL in order. *)
Record Request := {
  json_body : option value;
  searchParams : list (string * string)
}.

(** [searchParams.get(name)]: the first value of the parameter, or [null]. *)
Fixpoint searchParams_get (ps : list (string * string)) (name : string)
  : option string :=
  match ps with
  | [] => None
  | (k, v) :: ps' => if String.eqb k name then Some v else searchParams_get ps' name
  end.

(** [NextResponse.json(body, { status })]; [body] is the value handed over. *)
Record Response := {
  status : nat;
  body : value
}.

Definition json (b : value) (st : nat) : Response := {| status := st; body := b |}.

(** [NextResponse.json(body)]: the status defaults to 200. *)
Definition json_ok (b : value) : Response := json b 200.

(** What a handler does: answer, throw, or call the store and go on. *)
Inductive action :=
| Return (r : Response)
| Throw
| Rpc_get_all_transactions (limit : nat) (k : RowsResponse -> action)
| Rpc_add_transaction (params : AddTransactionParams) (k : PostgrestResponse -> action)
| Select_single (c : Client) (columns : string) (id : string)
    (k : PostgrestResponse -> action)
| Delete_eq (c : Client) (id : string) (k : DeleteResponse -> action).

(** The [catch] clause shared by the three handlers. *)
Definition unexpected : Response :=
  json (obj [("error", VStr "An unexpected error occurred")]) 500.

(** [try { a } catch (error) { return unexpected }] *)
Fixpoint try_catch (a : action) : action :=
  match a with
  | Return r => Return r
  | Throw => Return unexpected
  | Rpc_get_all_transactions n k => Rpc_get_all_transactions n (fun r => try_catch (k r))
  | Rpc_add_transaction p k => Rpc_add_transaction p (fun r => try_catch (k r))
  | Select_single c cols i k => Select_single c cols i (fun r => try_catch (k r))
  | Delete_eq c i k => Delete_eq c i (fun r => try_catch (k r))
  end.

(** An expression that may throw, inside a handler. *)
Notation "'let!' x ':=' e 'in' k" :=
  (match e with Some x => k | None => Throw end)
  (at level 10, x name, e at level 100, k at level 200, only parsing).

(** ** GET: the list operation and its normaliser *)

(** The callback of [data?.map(...)]: one flat row to the nested shape. *)
Definition transform (item : TransactionRPCResult) : value :=
  let jumlah :=
    if String.eqb item.(Row.tipe_transaksi) "masuk"
    then Math_abs (Number item.(Row.jumlah))
    else neg (Math_abs (Number item.(Row.jumlah))) in
  obj
    [ ("id", VStr item.(Row.id));
      ("anggota_id", VStr item.(Row.anggota_id));
      ("tipe_transaksi", VStr item.(Row.tipe_transaksi));
      ("source_type", string_or_null item.(Row.source_type));
      ("deskripsi", string_or_null item.(Row.deskripsi));
      ("jumlah", VNum jumlah);
      ("sebelum", VNum item.(Row.sebelum));
      ("sesudah", VNum item.(Row.sesudah));
      ("pembiayaan_id", string_or_null item.(Row.pembiayaan_id));
      ("tabungan_id", string_or_null item.(Row.tabungan_id));
      ("created_at", VStr item.(Row.created_at));
      ("updated_at", VStr item.(Row.updated_at));
      ("anggota",
        if ToBoolean (string_or_null item.(Row.anggota_nama))
        then obj
          [ ("nama", string_or_null item.(Row.anggota_nama));
            ("nomor_rekening", string_or_null item.(Row.anggota_nomor_rekening)) ]
        else VNull);
      ("tabungan",
        if ToBoolean (string_or_null item.(Row.tabungan_id))
        then obj
          [ ("saldo", number_or_null item.(Row.tabungan_saldo));
            ("jenis_tabungan_id", string_or_null item.(Row.tabungan_jenis_id));
            ("jenis_tabungan",
              if ToBoolean (string_or_null item.(Row.tabungan_jenis_nama))
              then obj
                [ ("nama", string_or_null item.(Row.tabungan_jenis_nama));
                  ("kode", string_or_null item.(Row.tabungan_jenis_kode)) ]
              else VNull) ]
        else VNull);
      ("pinjaman",
        if ToBoolean (number_or_null item.(Row.pembiayaan_jumlah))
        then obj
          [ ("id", string_or_null item.(Row.pembiayaan_id));
            ("jumlah", number_or_null item.(Row.pembiayaan_jumlah));
            ("sisa_pembayaran", number_or_null item.(Row.pembiayaan_sisa));
            ("jenis_pinjaman", string_or_null item.(Row.pembiayaan_jenis)) ]
        else VNull) ].

(** What [GET] does with the reply of [rpc("get_all_transactions").limit(100)]. *)
Definition GET_reply (res : RowsResponse) : action :=
  match rowsError res with
  | Some error => Return (json (obj [("error", VStr (message error))]) 500)
  | None =>
      (* data?.map(...) || [] *)
      let transformedData :=
        match rows res with
        | Some data => map transform data
        | None => []
        end in
      Return (json_ok (VArr transformedData))
  end.

Definition GET : action :=
  try_catch (Rpc_get_all_transactions 100 GET_reply).

(** ** POST: the create operation *)

Definition requiredFields : list string :=
  ["anggota_id"; "tipe_transaksi"; "source_type"; "jumlah"].

Definition field_required (field : string) : Response :=
  json (obj [("error", VStr ("Field '" +:+ field +:+ "' is required"))]) 400.

(** [for (const field of fields) { if (!body[field]) return ...; }],
    followed by [rest]. *)
Fixpoint for_each_required (body : value) (fields : list string) (rest : action)
  : action :=
  match fields with
  | [] => rest
  | field :: fields' =>
      match get body field with
      | None => Throw
      | Some v =>
          if not v then Return (field_required field)
          else for_each_required body fields' rest
      end
  end.

Definition jenis_tabungan_required : Response :=
  json
    (obj [("error", VStr "Jenis tabungan harus dipilih untuk setoran atau penarikan")])
    400.

(** The argument object of [rpc("add_transaction", ...)]; every property
    is read from a body that is neither [null] nor [undefined]. *)
Definition add_transaction_params (body : value) : option AddTransactionParams :=
  anggota_id ← get body "anggota_id";
  tipe_transaksi ← get body "tipe_transaksi";
  source_type ← get body "source_type";
  jumlah ← get body "jumlah";
  deskripsi ← get body "deskripsi";
  jenis_tabungan_id ← get body "jenis_tabungan_id";
  pembiayaan_id ← get body "pembiayaan_id";
  pinjaman_id ← get body "pinjaman_id";
  Some
    {| p_anggota_id := anggota_id;
       p_tipe_transaksi := tipe_transaksi;
       p_source_type := source_type;
       p_jumlah := jumlah;
       p_deskripsi := or deskripsi VNull;
       p_jenis_tabungan_id := or jenis_tabungan_id VNull;
       p_pembiayaan_id := or (or pembiayaan_id pinjaman_id) VNull |}.

(** What [POST] does with the reply of [rpc("add_transaction", ...)]. *)
Definition POST_reply (res : PostgrestResponse) : action :=
  match error res with
  | Some error =>
      Return
        (json
           (obj [("error", VStr ("Failed to create transaction: " +:+ message error))])
           500)
  | None =>
      let data := data res in
      let! success := get data "success" in
      if not success then
        let! data_error := get data "error" in
        Return (json (obj [("error", data_error)]) 400)
      else
        let! transaction_id := get data "transaction_id" in
        Return
          (json_ok
             (obj
                [ ("success", VBool true);
                  ("message", VStr "Transaction created successfully");
                  ("data", obj [("id", transaction_id)]) ]))
  end.

(** The body of [POST] once [request.json()] has produced [body]. *)
Definition POST_body (body : value) : action :=
  for_each_required body requiredFields
    (let! source_type := get body "source_type" in
     let! jenis_tabungan_id := get body "jenis_tabungan_id" in
     if strict_eq_string source_type "tabungan" && not jenis_tabungan_id
     then Return jenis_tabungan_required
     else
       let! params := add_transaction_params body in
       Rpc_add_transaction params POST_reply).

Definition POST (request : Request) : action :=
  try_catch
    match json_body request with
    | None => Throw
    | Some body => POST_body body
    end.

(** ** DELETE: the delete operation *)

Definition selected_columns : string :=
  "id, anggota_id, tipe_transaksi, jumlah, source_type, tabungan_id, pembiayaan_id".

(** What [DELETE] does with the reply of [.delete().eq("id", transactionId)]. *)
Definition DELETE_reply (res : DeleteResponse) : action :=
  match deleteError res with
  | Some deleteError =>
      Return
        (json
           (obj
              [ ("error",
                  VStr ("Failed to delete transaction: " +:+ message deleteError));
                ("details", details deleteError);
                ("hint", hint deleteError);
                ("code", code deleteError) ])
           500)
  | None =>
      Return
        (json_ok
           (obj
              [ ("success", VBool true);
                ("message", VStr "Transaction deleted successfully") ]))
  end.

(** What [DELETE] does with the reply of the existence check
    [.select(...).eq("id", transactionId).single()]. *)
Definition DELETE_fetched (clientToUse : Client) (transactionId : string)
  (res : PostgrestResponse) : action :=
  match error res with
  | Some fetchError =>
      Return
        (json
           (obj [("error", VStr ("Transaction not found: " +:+ message fetchError))])
           404)
  | None =>
      if not (data res)
      then Return (json (obj [("error", VStr "Transaction not found")]) 404)
      else Delete_eq clientToUse transactionId DELETE_reply
  end.

Definition id_required : Response :=
  json (obj [("error", VStr "Transaction ID is required")]) 400.

(** [admin_available] tells whether [supabaseAdmin] is non-null. *)
Definition DELETE (admin_available : bool) (request : Request) : action :=
  try_catch
    (let transactionId := searchParams_get (searchParams request) "id" in
     if not (string_or_null transactionId) then Return id_required
     else
       let! transactionId := transactionId in
       (* supabaseAdmin || supabase *)
       let clientToUse := if admin_available then supabaseAdmin else supabase in
       Select_single clientToUse selected_columns transactionId
         (DELETE_fetched clientToUse transactionId)).

(** ** Running a handler against a store *)

(** A store with state [S]: how it answers each call, and what the call
    does to its state.  The two reads leave the state alone. *)
Record Store (S : Type) := {
  get_all_transactions : nat -> S -> RowsResponse;
  add_transaction : AddTransactionParams -> S -> PostgrestResponse * S;
  select_single : Client -> string -> string -> S -> PostgrestResponse;
  delete_eq : Client -> string -> S -> DeleteResponse * S
}.

Arguments get_all_transactions {S}.
Arguments add_transaction {S}.
Arguments select_single {S}.
Arguments delete_eq {S}.

(** The store calls a run has issued, oldest first. *)
Inductive call :=
| Called_get_all_transactions (limit : nat)
| Called_add_transaction (params : AddTransactionParams)
| Called_select_single (c : Client) (columns : string) (id : string)
| Called_delete_eq (c : Client) (id : string).

(** The outcome of a run: the response ([None] for an uncaught throw), the
    final store state and the calls issued. *)
Record outcome (S : Type) := {
  response : option Response;
  final : S;
  calls : list call
}.

Arguments response {S}.
Arguments final {S}.
Arguments calls {S}.

Definition called {S} (c : call) (o : outcome S) : outcome S :=
  {| response := response o; final := final o; calls := c :: calls o |}.

Fixpoint exec {S} (st : Store S) (a : action) (s : S) : outcome S :=
  match a with
  | Return r => {| response := Some r; final := s; calls := [] |}
  | Throw => {| response := None; final := s; calls := [] |}
  | Rpc_get_all_transactions n k =>
      called (Called_get_all_transactions n)
        (exec st (k (get_all_transactions st n s)) s)
  | Rpc_add_transaction p k =>
      let '(res, s') := add_transaction st p s in
      called (Called_add_transaction p) (exec st (k res) s')
  | Select_single c cols i k =>
      called (Called_select_single c cols i)
        (exec st (k (select_single st c cols i s)) s)
  | Delete_eq c i k =>
      let '(res, s') := delete_eq st c i s in
      called (Called_delete_eq c i) (exec st (k res) s')
  end.

(** The ledger table [transaksi], its rows keyed by [id]. *)
Abbreviation ledger := (gmap string value).

Section TableStore.

(** The error [single()] reports when the query selects no row. *)
Variable no_rows : PostgrestError.

(** The two stored procedures are opaque to the route. *)
Variable rpc_get_all_transactions : nat -> ledger -> RowsResponse.
Variable rpc_add_transaction :
  AddTransactionParams -> ledger -> PostgrestResponse * ledger.

(** A store that keeps the table as a finite map: [single()] yields the
    row with the given id and reports [no_rows] when there is none;
    [delete().eq("id", i)] removes the row. *)
Definition table_store : Store ledger :=
  {| get_all_transactions := rpc_get_all_transactions;
     add_transaction := rpc_add_transaction;
     select_single := fun _ _ i t =>
       match t !! i with
       | Some row => {| data := row; error := None |}
       | None => {| data := VNull; error := Some no_rows |}
       end;
     delete_eq := fun _ i t =>
       ({| deleteError := None; count := VNull |}, delete i t) |}.

End TableStore.

(** ** The words of the specification *)

(** A create request "passes local validation": each of the four required
    fields is there (and not falsy), and a savings type is given when the
    source is [tabungan]. *)
Definition passes_validation (props : gmap string value) : bool :=
  forallb (fun field => ToBoolean (prop props field)) requiredFields
  && negb (strict_eq_string (prop props "source_type") "tabungan"
           && not (prop props "jenis_tabungan_id")).

(** The first required field a body lacks, if any. *)
Definition first_missing (props : gmap string value) (fields : list string)
  : option string :=
  List.find (fun field => not (prop props field)) fields.

(** A request with the given JSON body and query parameters. *)
Definition request_with (props : gmap string value) (ps : list (string * string))
  : Request :=
  {| json_body := Some (VObj props); searchParams := ps |}.

(** ** Sample data *)

Module Sample.

(** A withdrawal from a savings account, stored with a positive amount;
    no loan is joined. *)
Definition withdrawal : TransactionRPCResult :=
  {| Row.id := "t-1";
     Row.anggota_id := "a-1";
     Row.tipe_transaksi := "keluar";
     Row.source_type := Some "tabungan";
     Row.deskripsi := None;
     Row.jumlah := of_Z 50000;
     Row.sebelum := of_Z 200000;
     Row.sesudah := of_Z 150000;
     Row.pembiayaan_id := None;
     Row.tabungan_id := Some "s-1";
     Row.created_at := "2024-01-01T00:00:00Z";
     Row.updated_at := "2024-01-01T00:00:00Z";
     Row.anggota_nama := Some "Siti";
     Row.anggota_nomor_rekening := Some "0001";
     Row.tabungan_saldo := Some (of_Z 150000);
     Row.tabungan_jenis_id := Some "j-1";
     Row.tabungan_jenis_nama := Some "Wadiah";
     Row.tabungan_jenis_kode := Some "WD";
     Row.pembiayaan_jumlah := None;
     Row.pembiayaan_sisa := None;
     Row.pembiayaan_jenis := None |}.


(** An instalment on loan [l-1], whose joined amount is 0. *)
Definition zero_loan : TransactionRPCResult :=
  {| Row.id := "t-3";
     Row.anggota_id := "a-2";
     Row.tipe_transaksi := "masuk";
     Row.source_type := Some "pembiayaan";
     Row.deskripsi := Some "angsuran";
     Row.jumlah := of_Z (-250000);
     Row.sebelum := of_Z 1000000;
     Row.sesudah := of_Z 750000;
     Row.pembiayaan_id := Some "l-1";
     Row.tabungan_id := None;
     Row.created_at := "2024-01-03T00:00:00Z";
     Row.updated_at := "2024-01-03T00:00:00Z";
     Row.anggota_nama := Some "Budi";
     Row.anggota_nomor_rekening := None;
     Row.tabungan_saldo := None;
     Row.tabungan_jenis_id := None;
     Row.tabungan_jenis_nama := None;
     Row.tabungan_jenis_kode := None;
     Row.pembiayaan_jumlah := Some (of_Z 0);
     Row.pembiayaan_sisa := Some (of_Z 0);
     Row.pembiayaan_jenis := Some "murabahah" |}.

(** The body of the specification's example: no [anggota_id]. *)
Definition no_member : gmap string value :=
  list_to_map
    [ ("tipe_transaksi", VStr "masuk");
      ("source_type", VStr "tabungan");
      ("jumlah", VNum (of_Z 1000)) ].

(** A savings deposit without [jenis_tabungan_id]. *)
Definition savings_without_type : gmap string value :=
  list_to_map
    [ ("anggota_id", VStr "a-1");
      ("tipe_transaksi", VStr "masuk");
      ("source_type", VStr "tabungan");
      ("jumlah", VNum (of_Z 1000)) ].

(** An instalment of amount 0. *)
Definition zero_amount : gmap string value :=
  list_to_map
    [ ("anggota_id", VStr "a-2");
      ("tipe_transaksi", VStr "masuk");
      ("source_type", VStr "pembiayaan");
      ("jumlah", VNum (of_Z 0));
      ("pembiayaan_id", VStr "l-1") ].

(** An instalment on loan [l-1], named by the new field only. *)
Definition instalment : gmap string value :=
  list_to_map
    [ ("anggota_id", VStr "a-2");
      ("tipe_transaksi", VStr "masuk");
      ("source_type", VStr "pembiayaan");
      ("jumlah", VNum (of_Z 250000));
      ("pembiayaan_id", VStr "l-1") ].

(** The same with the legacy field naming another loan. *)
Definition instalment_both_names : gmap string value :=
  <["pinjaman_id" := VStr "l-0"]> instalment.

Definition no_rows : PostgrestError :=
  {| message := "JSON object requested, multiple (or no) rows returned";
     details := VStr "The result contains 0 rows";
     hint := VNull;
     code := VStr "PGRST116" |}.

(** The store procedure refuses: a structured unsuccessful outcome. *)
Definition refused : PostgrestResponse :=
  {| data := obj [("success", VBool false); ("error", VStr "Saldo tidak mencukupi")];
     error := None |}.

(** A store whose [add_transaction] refuses every request and whose list
    is empty. *)
Definition refusing_store : Store ledger :=
  table_store no_rows
    (fun _ _ => {| rows := Some []; rowsError := None |})
    (fun _ t => (refused, t)).

(** A ledger with the single row [t-1], and a request to delete [t-404]. *)
Definition one_row : ledger := {["t-1" := obj [("id", VStr "t-1")]]}.

Definition delete_unknown : Request :=
  {| json_body := None; searchParams := [("id", "t-404")] |}.

End Sample.

(** The calls and the answer of [POST] on the body [props], run against
    the store [st] with an empty ledger. *)
Definition run_POST (props : gmap string value) (st : Store ledger)
  : list call * option Response :=
  let o := exec st (POST (request_with props [])) ∅ in (calls o, response o).

(** A store whose table refuses every delete, as a foreign key would. *)
Module Refusal.

Definition foreign_key : PostgrestError :=
  {| message := "update or delete on table violates foreign key constraint";
     details := VStr "Key is still referenced";
     hint := VNull;
     code := VStr "23503" |}.

Definition store : Store ledger :=
  {| get_all_transactions := fun _ _ => {| rows := Some []; rowsError := None |};
     add_transaction := fun _ t => (Sample.refused, t);
     select_single := fun _ _ i t =>
       match t !! i with
       | Some row => {| data := row; error := None |}
       | None => {| data := VNull; error := Some Sample.no_rows |}
       end;
     delete_eq := fun _ _ t =>
       ({| deleteError := Some foreign_key; count := VNull |}, t) |}.

Definition delete_known : Request :=
  {| json_body := None; searchParams := [("id", "t-1")] |}.

End Refusal.

(** The properties of the body that [POST] reads. *)
Definition POST_fields : list string :=
  [ "anggota_id"; "tipe_transaksi"; "source_type"; "jumlah"; "deskripsi";
    "jenis_tabungan_id"; "pembiayaan_id"; "pinjaman_id" ].

(** * Properties *)

(** ** Numbers *)

Lemma Math_abs_neg (x : number) : Math_abs (neg x) = Math_abs x.
Proof. destruct x; reflexivity. Qed.

(** [Math.abs] never yields a number below zero, and its negation never
    one above: on everything but [NaN], [0 <= |x|] and [-|x| <= 0]. *)
Lemma Math_abs_nonneg (x : number) :
  x <> S754_nan -> SFleb (S754_zero false) (Math_abs x) = true.
Proof. destruct x; intros H; try reflexivity. congruence. Qed.

Lemma neg_Math_abs_nonpos (x : number) :
  x <> S754_nan -> SFleb (neg (Math_abs x)) (S754_zero false) = true.
Proof. destruct x; intros H; try reflexivity. congruence. Qed.

(** ** The fields of a normalised entry *)

Section Transform.

Variable item : TransactionRPCResult.

Lemma transform_jumlah :
  get (transform item) "jumlah" =
  Some (VNum (if String.eqb item.(Row.tipe_transaksi) "masuk"
              then Math_abs item.(Row.jumlah)
              else neg (Math_abs item.(Row.jumlah)))).
Proof. reflexivity. Qed.


Lemma transform_tabungan :
  get (transform item) "tabungan" =
  Some (if ToBoolean (string_or_null item.(Row.tabungan_id))
        then obj
          [ ("saldo", number_or_null item.(Row.tabungan_saldo));
            ("jenis_tabungan_id", string_or_null item.(Row.tabungan_jenis_id));
            ("jenis_tabungan",
              if ToBoolean (string_or_null item.(Row.tabungan_jenis_nama))
              then obj
                [ ("nama", string_or_null item.(Row.tabungan_jenis_nama));
                  ("kode", string_or_null item.(Row.tabungan_jenis_kode)) ]
              else VNull) ]
        else VNull).
Proof. reflexivity. Qed.

Lemma transform_pinjaman :
  get (transform item) "pinjaman" =
  Some (if ToBoolean (number_or_null item.(Row.pembiayaan_jumlah))
        then obj
          [ ("id", string_or_null item.(Row.pembiayaan_id));
            ("jumlah", number_or_null item.(Row.pembiayaan_jumlah));
            ("sisa_pembayaran", number_or_null item.(Row.pembiayaan_sisa));
            ("jenis_pinjaman", string_or_null item.(Row.pembiayaan_jenis)) ]
        else VNull).
Proof. reflexivity. Qed.

End Transform.

(** ** The required-field loop *)

Lemma for_each_required_obj (props : gmap string value) (fields : list string)
  (rest : action) :
  for_each_required (VObj props) fields rest =
  match first_missing props fields with
  | Some field => Return (field_required field)
  | None => rest
  end.
Proof.
  induction fields as [|field fields IH]; [reflexivity|].
  cbn [for_each_required get first_missing List.find].
  destruct (not (prop props field)); [reflexivity|].
  exact IH.
Qed.

Lemma first_missing_Some (props : gmap string value) (fields : list string)
  (field : string) :
  first_missing props fields = Some field ->
  In field fields /\ ToBoolean (prop props field) = false.
Proof.
  intros H. apply List.find_some in H as [Hin Hnot].
  split; [exact Hin|]. unfold not in Hnot.
  now apply negb_true_iff in Hnot.
Qed.

Lemma first_missing_exists (props : gmap string value) (fields : list string)
  (field : string) :
  In field fields -> ToBoolean (prop props field) = false ->
  exists named, first_missing props fields = Some named.
Proof.
  intros Hin Hfalsy.
  destruct (first_missing props fields) as [named|] eqn:E; [now exists named|].
  unfold first_missing in E.
  pose proof (List.find_none _ _ E field Hin) as Hn.
  unfold not in Hn. rewrite Hfalsy in Hn. discriminate.
Qed.

Lemma passes_validation_first_missing (props : gmap string value) :
  passes_validation props = true -> first_missing props requiredFields = None.
Proof.
  unfold passes_validation. intros H.
  apply andb_true_iff in H as [H _].
  unfold first_missing.
  destruct (List.find _ requiredFields) as [field|] eqn:E; [|reflexivity].
  apply List.find_some in E as [Hin Hnot].
  rewrite forallb_forall in H. specialize (H field Hin).
  unfold not in Hnot. rewrite H in Hnot. discriminate.
Qed.

(** A body that passes validation reaches the store, with these arguments. *)
Lemma POST_valid (props : gmap string value) (ps : list (string * string)) :
  passes_validation props = true ->
  POST (request_with props ps) =
  Rpc_add_transaction
    {| p_anggota_id := prop props "anggota_id";
       p_tipe_transaksi := prop props "tipe_transaksi";
       p_source_type := prop props "source_type";
       p_jumlah := prop props "jumlah";
       p_deskripsi := or (prop props "deskripsi") VNull;
       p_jenis_tabungan_id := or (prop props "jenis_tabungan_id") VNull;
       p_pembiayaan_id :=
         or (or (prop props "pembiayaan_id") (prop props "pinjaman_id")) VNull |}
    (fun res => try_catch (POST_reply res)).
Proof.
  intros H.
  unfold POST, request_with, POST_body. cbn [json_body].
  rewrite for_each_required_obj, (passes_validation_first_missing _ H).
  unfold passes_validation in H. apply andb_true_iff in H as [_ H].
  apply negb_true_iff in H.
  cbn [get]. rewrite H. reflexivity.
Qed.

(** A body that lacks a required field is answered at once. *)
Lemma POST_missing (props : gmap string value) (ps : list (string * string))
  (named : string) :
  first_missing props requiredFields = Some named ->
  POST (request_with props ps) = Return (field_required named).
Proof.
  intros H.
  unfold POST, request_with, POST_body. cbn [json_body].
  rewrite for_each_required_obj, H. reflexivity.
Qed.

(** ** The list operation *)

Example withdrawal_listed_negative :
  get (transform Sample.withdrawal) "jumlah" = Some (VNum (of_Z (-50000))).
Proof. reflexivity. Qed.

Example instalment_listed_positive :
  get (transform Sample.zero_loan) "jumlah" = Some (VNum (of_Z 250000)).
Proof. reflexivity. Qed.

(** C1: [GET] asks the store for the rows and answers with their
    normalised entries; the [jumlah] of the entry of a row is [+|jumlah|]
    when the row's [tipe_transaksi] is ["masuk"] and [-|jumlah|] when it is
    ["keluar"], and it is the same whichever sign the stored amount has. *)
Theorem C1_listed_jumlah_follows_direction :
  exists k,
    GET = Rpc_get_all_transactions 100 k /\
    (forall data : list TransactionRPCResult,
       k {| rows := Some data; rowsError := None |} =
       Return (json_ok (VArr (map transform data)))) /\
    (forall item : TransactionRPCResult,
       let listed := get (transform item) "jumlah" in
       (item.(Row.tipe_transaksi) = "masuk" ->
        listed = Some (VNum (Math_abs item.(Row.jumlah)))) /\
       (item.(Row.tipe_transaksi) = "keluar" ->
        listed = Some (VNum (neg (Math_abs item.(Row.jumlah))))) /\
       get (transform (Row.with_jumlah (neg item.(Row.jumlah)) item)) "jumlah" = listed).
Proof.
  eexists. split; [reflexivity|]. split; [reflexivity|].
  intros item listed. subst listed. rewrite !transform_jumlah.
  repeat split.
  - intros ->. reflexivity.
  - intros ->. reflexivity.
  - cbn [Row.with_jumlah Row.tipe_transaksi Row.jumlah].
    rewrite Math_abs_neg. reflexivity.
Qed.

Lemma ToBoolean_string_or_null (x : option string) :
  ToBoolean (string_or_null x) = false <-> x = None \/ x = Some "".
Proof.
  destruct x as [s|]; cbn [string_or_null ToBoolean].
  - rewrite negb_false_iff, String.eqb_eq. split.
    + intros ->. now right.
    + intros [H|H]; congruence.
  - split; [now left | reflexivity].
Qed.

Lemma ToBoolean_number_or_null (x : option number) :
  ToBoolean (number_or_null x) = false <->
  x = None \/ x = Some S754_nan \/ exists s, x = Some (S754_zero s).
Proof.
  split.
  - destruct x as [[s|s| |s m e]|]; cbn [number_or_null ToBoolean];
      try discriminate; intros _.
    + right. right. now exists s.
    + right. now left.
    + now left.
  - intros [->|[->|[s ->]]]; reflexivity.
Qed.

(** Which rows get a [pinjaman], an [anggota], a [tabungan] sub-object. *)
Lemma pinjaman_null_iff (item : TransactionRPCResult) :
  get (transform item) "pinjaman" = Some VNull <->
  ToBoolean (number_or_null item.(Row.pembiayaan_jumlah)) = false.
Proof.
  rewrite transform_pinjaman.
  destruct (ToBoolean (number_or_null item.(Row.pembiayaan_jumlah))); split;
    try reflexivity; discriminate.
Qed.


Lemma tabungan_null_iff (item : TransactionRPCResult) :
  get (transform item) "tabungan" = Some VNull <->
  ToBoolean (string_or_null item.(Row.tabungan_id)) = false.
Proof.
  rewrite transform_tabungan.
  destruct (ToBoolean (string_or_null item.(Row.tabungan_id))); split;
    try reflexivity; discriminate.
Qed.



(** C10: the [pinjaman] of an entry is decided by the joined loan amount,
    not by the loan id: it is null whenever [pembiayaan_jumlah] is null or
    zero, whatever [pembiayaan_id] is, and the sample instalment, linked to
    loan [l-1] with amount 0, is listed with [pinjaman] null.  The
    [tabungan] of an entry is decided by [tabungan_id]: null when the id is
    null, an object when it is an (ordinary, non-empty) id, whatever the
    joined savings fields are. *)
Theorem C10_pinjaman_keyed_on_amount :
  (forall item : TransactionRPCResult,
     let entry := transform item in
     (get entry "pinjaman" = Some VNull <->
      ToBoolean (number_or_null item.(Row.pembiayaan_jumlah)) = false) /\
     (item.(Row.pembiayaan_jumlah) = None \/
      (exists s, item.(Row.pembiayaan_jumlah) = Some (S754_zero s)) ->
      get entry "pinjaman" = Some VNull) /\
     (get entry "tabungan" = Some VNull <->
      ToBoolean (string_or_null item.(Row.tabungan_id)) = false) /\
     (item.(Row.tabungan_id) = None -> get entry "tabungan" = Some VNull) /\
     (forall i, item.(Row.tabungan_id) = Some i -> i <> "" ->
      get entry "tabungan" =
      Some (obj
        [ ("saldo", number_or_null item.(Row.tabungan_saldo));
          ("jenis_tabungan_id", string_or_null item.(Row.tabungan_jenis_id));
          ("jenis_tabungan",
            if ToBoolean (string_or_null item.(Row.tabungan_jenis_nama))
            then obj
              [ ("nama", string_or_null item.(Row.tabungan_jenis_nama));
                ("kode", string_or_null item.(Row.tabungan_jenis_kode)) ]
            else VNull) ]))) /\
  (Row.pembiayaan_id Sample.zero_loan = Some "l-1" /\
   Row.pembiayaan_jumlah Sample.zero_loan = Some (S754_zero false) /\
   get (transform Sample.zero_loan) "pinjaman" = Some VNull).
Proof.
  split; [|repeat split].
  intros item entry. subst entry.
  split; [apply pinjaman_null_iff|].
  split.
  { intros H. apply pinjaman_null_iff, ToBoolean_number_or_null.
    destruct H as [H|H]; [now left | now right; right]. }
  split; [apply tabungan_null_iff|].
  split.
  { intros H. apply tabungan_null_iff, ToBoolean_string_or_null. now left. }
  intros i Hi Hne. rewrite transform_tabungan, Hi.
  cbn [string_or_null ToBoolean].
  destruct (String.eqb_spec i "") as [->|_]; [congruence | reflexivity].
Qed.

(** ** The create operation *)

Lemma prop_absent (props : gmap string value) (k : string) :
  props !! k = None -> prop props k = VUndefined.
Proof. unfold prop. now intros ->. Qed.

Lemma prop_present (props : gmap string value) (k : string) (v : value) :
  props !! k = Some v -> prop props k = v.
Proof. unfold prop. now intros ->. Qed.

(** A body with a falsy required field is answered with status 400, naming
    the first such field, which is the given one when the fields before it
    are fine. *)
Lemma POST_falsy_required (props : gmap string value) (ps : list (string * string))
  (field : string) :
  In field requiredFields -> ToBoolean (prop props field) = false ->
  exists named,
    In named requiredFields /\
    ToBoolean (prop props named) = false /\
    POST (request_with props ps) =
    Return (json (obj [("error", VStr ("Field '" +:+ named +:+ "' is required"))]) 400) /\
    ((forall other, In other requiredFields -> other <> field ->
        ToBoolean (prop props other) = true) ->
     named = field).
Proof.
  intros Hin Hfalsy.
  destruct (first_missing_exists _ _ _ Hin Hfalsy) as [named Hnamed].
  exists named.
  destruct (first_missing_Some _ _ _ Hnamed) as [Hin' Hfalsy'].
  split; [exact Hin'|]. split; [exact Hfalsy'|].
  split; [exact (POST_missing _ ps _ Hnamed)|].
  intros Hothers.
  destruct (String.eqb_spec named field) as [E|Hne]; [exact E|].
  rewrite (Hothers named Hin' Hne) in Hfalsy'. discriminate.
Qed.

(** C3: a create request whose body omits one of the four required fields
    is answered with status 400 and the message [Field '<name>' is
    required], where <name> is a required field the body lacks: the
    omitted one when the other three are there.  No store call is made. *)
Theorem C3_missing_required_field (props : gmap string value)
  (ps : list (string * string)) (field : string) :
  In field requiredFields -> props !! field = None ->
  exists named,
    In named requiredFields /\
    ToBoolean (prop props named) = false /\
    POST (request_with props ps) =
    Return (json (obj [("error", VStr ("Field '" +:+ named +:+ "' is required"))]) 400) /\
    ((forall other, In other requiredFields -> other <> field ->
        ToBoolean (prop props other) = true) ->
     named = field) /\
    (forall (S : Type) (st : Store S) (s : S),
       calls (exec st (POST (request_with props ps)) s) = []).
Proof.
  intros Hin Habsent.
  assert (Hfalsy : ToBoolean (prop props field) = false)
    by now rewrite (prop_absent _ _ Habsent).
  destruct (POST_falsy_required props ps field Hin Hfalsy)
    as (named & H1 & H2 & H3 & H4).
  exists named. repeat (split; [assumption|]).
  intros S st s. rewrite H3. reflexivity.
Qed.

Lemma C3_missing_required_field_witness :
  exists named,
    In named requiredFields /\
    ToBoolean (prop Sample.no_member named) = false /\
    POST (request_with Sample.no_member []) =
    Return (json (obj [("error", VStr ("Field '" +:+ named +:+ "' is required"))]) 400) /\
    ((forall other, In other requiredFields -> other <> "anggota_id" ->
        ToBoolean (prop Sample.no_member other) = true) ->
     named = "anggota_id") /\
    (forall (S : Type) (st : Store S) (s : S),
       calls (exec st (POST (request_with Sample.no_member [])) s) = []).
Proof.
  apply (C3_missing_required_field Sample.no_member [] "anggota_id").
  - left. reflexivity.
  - reflexivity.
Defined.

Example no_member_answer :
  POST (request_with Sample.no_member []) =
  Return (json (obj [("error", VStr "Field 'anggota_id' is required")]) 400).
Proof. reflexivity. Qed.

(** Dropping a falsy required field from the body changes nothing. *)
Lemma first_missing_delete (props : gmap string value) (field : string)
  (fields : list string) :
  ToBoolean (prop props field) = false ->
  first_missing (delete field props) fields = first_missing props fields.
Proof.
  intros Hfalsy. unfold first_missing.
  induction fields as [|f fields IH]; [reflexivity|].
  cbn [List.find]. rewrite IH.
  replace (not (prop (delete field props) f)) with (not (prop props f));
    [reflexivity|].
  unfold not, prop.
  destruct (String.eqb_spec f field) as [->|Hne].
  - rewrite lookup_delete_eq. unfold prop in Hfalsy. rewrite Hfalsy. reflexivity.
  - rewrite lookup_delete_ne by congruence. reflexivity.
Qed.

(** A create request in which a required field is present but falsy is
    answered exactly as the request without that field: status 400 and the
    message [Field '<name>' is required], naming that field when the other
    three are fine, and no store call is made. *)
Theorem falsy_required_field (props : gmap string value)
  (ps : list (string * string)) (field : string) (v : value) :
  In field requiredFields -> props !! field = Some v -> ToBoolean v = false ->
  POST (request_with props ps) = POST (request_with (delete field props) ps) /\
  exists named,
    In named requiredFields /\
    POST (request_with props ps) =
    Return (json (obj [("error", VStr ("Field '" +:+ named +:+ "' is required"))]) 400) /\
    ((forall other, In other requiredFields -> other <> field ->
        ToBoolean (prop props other) = true) ->
     named = field) /\
    (forall (S : Type) (st : Store S) (s : S),
       calls (exec st (POST (request_with props ps)) s) = []).
Proof.
  intros Hin Hv Hfalsy.
  assert (Hprop : ToBoolean (prop props field) = false)
    by now rewrite (prop_present _ _ _ Hv).
  destruct (POST_falsy_required props ps field Hin Hprop)
    as (named & H1 & H2 & H3 & H4).
  split.
  - destruct (first_missing_exists _ _ _ Hin Hprop) as [named' Hnamed].
    rewrite (POST_missing _ ps _ Hnamed).
    symmetry. apply POST_missing.
    now rewrite first_missing_delete.
  - exists named. repeat (split; [assumption|]).
    intros S st s. rewrite H3. reflexivity.
Qed.

Lemma falsy_required_field_at_zero_amount :
  POST (request_with Sample.zero_amount []) =
  POST (request_with (delete "jumlah" Sample.zero_amount) []) /\
  exists named,
    In named requiredFields /\
    POST (request_with Sample.zero_amount []) =
    Return (json (obj [("error", VStr ("Field '" +:+ named +:+ "' is required"))]) 400) /\
    ((forall other, In other requiredFields -> other <> "jumlah" ->
        ToBoolean (prop Sample.zero_amount other) = true) ->
     named = "jumlah") /\
    (forall (S : Type) (st : Store S) (s : S),
       calls (exec st (POST (request_with Sample.zero_amount [])) s) = []).
Proof.
  apply (falsy_required_field Sample.zero_amount [] "jumlah" (VNum (of_Z 0))).
  - right. right. right. left. reflexivity.
  - reflexivity.
  - reflexivity.
Defined.



Example zero_amount_answer :
  POST (request_with Sample.zero_amount []) =
  Return (json (obj [("error", VStr "Field 'jumlah' is required")]) 400).
Proof. reflexivity. Qed.

Example empty_member_answer :
  POST (request_with (<["anggota_id" := VStr ""]> Sample.instalment) []) =
  Return (json (obj [("error", VStr "Field 'anggota_id' is required")]) 400).
Proof. reflexivity. Qed.

Example empty_direction_answer :
  POST (request_with (<["tipe_transaksi" := VStr ""]> Sample.instalment) []) =
  Return (json (obj [("error", VStr "Field 'tipe_transaksi' is required")]) 400).
Proof. reflexivity. Qed.

Example empty_source_answer :
  POST (request_with (<["source_type" := VStr ""]> Sample.instalment) []) =
  Return (json (obj [("error", VStr "Field 'source_type' is required")]) 400).
Proof. reflexivity. Qed.

(** A body that is [null] is not answered with status 400: reading its
    first field throws, and the handler answers 500. *)
Example null_body_answer (ps : list (string * string)) :
  POST {| json_body := Some VNull; searchParams := ps |} = Return unexpected.
Proof. reflexivity. Qed.

(** C4, as the specification states it, fails: the body of the
    specification's own example has [source_type] ["tabungan"] and no
    [jenis_tabungan_id], and is answered with the message about the
    missing [anggota_id], not with the one about the savings type. *)
Lemma C4_counterexample :
  Sample.no_member !! "source_type" = Some (VStr "tabungan") /\
  Sample.no_member !! "jenis_tabungan_id" = None /\
  POST (request_with Sample.no_member []) =
    Return (json (obj [("error", VStr "Field 'anggota_id' is required")]) 400) /\
  POST (request_with Sample.no_member []) <> Return jenis_tabungan_required.
Proof.
  split; [reflexivity|]. split; [reflexivity|]. split; [reflexivity|].
  intros H. apply (f_equal (fun a =>
    match a with Return r => get (body r) "error" | _ => None end)) in H.
  vm_compute in H. discriminate.
Qed.

(** C4, amended: a create request whose four required fields are present
    (and not falsy), whose [source_type] is ["tabungan"] and which has no
    [jenis_tabungan_id] (or a falsy one) is answered with status 400 and
    the message [Jenis tabungan harus dipilih untuk setoran atau
    penarikan]; no store call is made. *)
Theorem C4_savings_type_required (props : gmap string value)
  (ps : list (string * string)) :
  (forall field, In field requiredFields -> ToBoolean (prop props field) = true) ->
  props !! "source_type" = Some (VStr "tabungan") ->
  ToBoolean (prop props "jenis_tabungan_id") = false ->
  POST (request_with props ps) =
    Return
      (json
         (obj [("error",
                 VStr "Jenis tabungan harus dipilih untuk setoran atau penarikan")])
         400) /\
  (forall (S : Type) (st : Store S) (s : S),
     calls (exec st (POST (request_with props ps)) s) = []).
Proof.
  intros Hreq Hsource Hjenis.
  assert (E : POST (request_with props ps) = Return jenis_tabungan_required).
  { unfold POST, request_with, POST_body. cbn [json_body].
    rewrite for_each_required_obj.
    destruct (first_missing props requiredFields) as [named|] eqn:Hm.
    - apply first_missing_Some in Hm as [Hin Hfalsy].
      rewrite (Hreq named Hin) in Hfalsy. discriminate.
    - cbn [get]. rewrite (prop_present _ _ _ Hsource).
      unfold not. rewrite Hjenis. reflexivity. }
  split; [exact E|].
  intros S st s. rewrite E. reflexivity.
Qed.

Lemma C4_savings_type_required_witness :
  POST (request_with Sample.savings_without_type []) =
    Return
      (json
         (obj [("error",
                 VStr "Jenis tabungan harus dipilih untuk setoran atau penarikan")])
         400) /\
  (forall (S : Type) (st : Store S) (s : S),
     calls (exec st (POST (request_with Sample.savings_without_type [])) s) = []).
Proof.
  apply (C4_savings_type_required Sample.savings_without_type []).
  - intros field [<-|[<-|[<-|[<-|[]]]]]; reflexivity.
  - reflexivity.
  - reflexivity.
Defined.

(** C5: for a create request that passes validation, the loan reference
    handed to [add_transaction] is the body's [pembiayaan_id] when that is
    present, else its [pinjaman_id] when that is present, else null.  So a
    request with [pembiayaan_id] = X records X, with or without a
    [pinjaman_id]. *)
Theorem C5_loan_reference (props : gmap string value) (ps : list (string * string)) :
  passes_validation props = true ->
  exists params k,
    POST (request_with props ps) = Rpc_add_transaction params k /\
    p_pembiayaan_id params =
      (if ToBoolean (prop props "pembiayaan_id") then prop props "pembiayaan_id"
       else if ToBoolean (prop props "pinjaman_id") then prop props "pinjaman_id"
       else VNull) /\
    (forall X, props !! "pembiayaan_id" = Some X -> ToBoolean X = true ->
       p_pembiayaan_id params = X) /\
    (forall Y, props !! "pembiayaan_id" = None ->
       props !! "pinjaman_id" = Some Y -> ToBoolean Y = true ->
       p_pembiayaan_id params = Y) /\
    (props !! "pembiayaan_id" = None -> props !! "pinjaman_id" = None ->
       p_pembiayaan_id params = VNull).
Proof.
  intros Hvalid. eexists. eexists.
  split; [exact (POST_valid props ps Hvalid)|].
  cbn [p_pembiayaan_id]. unfold or.
  split.
  { destruct (ToBoolean (prop props "pembiayaan_id")) eqn:E1; rewrite ?E1;
      [reflexivity|].
    destruct (ToBoolean (prop props "pinjaman_id")) eqn:E2; rewrite ?E2;
      reflexivity. }
  split.
  { intros X HX HtX. rewrite (prop_present _ _ _ HX), HtX, HtX. reflexivity. }
  split.
  { intros Y Hnone HY HtY.
    rewrite (prop_absent _ _ Hnone), (prop_present _ _ _ HY).
    cbn [ToBoolean]. rewrite HtY. reflexivity. }
  intros H1 H2. rewrite (prop_absent _ _ H1), (prop_absent _ _ H2). reflexivity.
Qed.

Lemma C5_loan_reference_witness :
  exists params k,
    POST (request_with Sample.instalment_both_names []) =
      Rpc_add_transaction params k /\
    p_pembiayaan_id params =
      (if ToBoolean (prop Sample.instalment_both_names "pembiayaan_id")
       then prop Sample.instalment_both_names "pembiayaan_id"
       else if ToBoolean (prop Sample.instalment_both_names "pinjaman_id")
       then prop Sample.instalment_both_names "pinjaman_id"
       else VNull) /\
    (forall X, Sample.instalment_both_names !! "pembiayaan_id" = Some X ->
       ToBoolean X = true -> p_pembiayaan_id params = X) /\
    (forall Y, Sample.instalment_both_names !! "pembiayaan_id" = None ->
       Sample.instalment_both_names !! "pinjaman_id" = Some Y ->
       ToBoolean Y = true -> p_pembiayaan_id params = Y) /\
    (Sample.instalment_both_names !! "pembiayaan_id" = None ->
     Sample.instalment_both_names !! "pinjaman_id" = None ->
     p_pembiayaan_id params = VNull).
Proof.
  apply (C5_loan_reference Sample.instalment_both_names []).
  reflexivity.
Defined.

Example new_name_alone_recorded :
  exists params, fst (run_POST Sample.instalment Sample.refusing_store)
                 = [Called_add_transaction params] /\
                 p_pembiayaan_id params = VStr "l-1".
Proof. eexists. split; reflexivity. Qed.

Example new_name_wins :
  exists params, fst (run_POST Sample.instalment_both_names Sample.refusing_store)
                 = [Called_add_transaction params] /\
                 p_pembiayaan_id params = VStr "l-1".
Proof. eexists. split; reflexivity. Qed.

Example legacy_name_accepted :
  exists params,
    fst (run_POST (<["pinjaman_id" := VStr "l-0"]>
                     (delete "pembiayaan_id" Sample.instalment))
           Sample.refusing_store)
    = [Called_add_transaction params] /\
    p_pembiayaan_id params = VStr "l-0".
Proof. eexists. split; reflexivity. Qed.

(** C2, as the specification states it, fails: the sample instalment passes
    validation, the store refuses it with a structured outcome, and the
    answer carries the store's message with status 400, not 500. *)
Lemma C2_counterexample :
  passes_validation Sample.instalment = true /\
  (exists params,
     fst (run_POST Sample.instalment Sample.refusing_store) =
     [Called_add_transaction params]) /\
  snd (run_POST Sample.instalment Sample.refusing_store) =
    Some (json (obj [("error", VStr "Saldo tidak mencukupi")]) 400) /\
  (status <$> snd (run_POST Sample.instalment Sample.refusing_store)) <> Some 500.
Proof.
  split; [reflexivity|]. split; [eexists; reflexivity|].
  split; [reflexivity|]. discriminate.
Qed.

(** C2, amended: for a create request that passes validation the handler
    calls [add_transaction] once and answers according to the reply.  A
    call error gives status 500 with [Failed to create transaction: ]
    followed by the store's message; a structured outcome whose [success]
    is falsy gives status 400 with the store's [error]; a structured
    outcome whose [success] is truthy gives status 200 with
    [{success: true, message, data: {id}}], [id] being the store's
    [transaction_id]. *)
Theorem C2_store_outcome (props : gmap string value) (ps : list (string * string)) :
  passes_validation props = true ->
  exists params k,
    POST (request_with props ps) = Rpc_add_transaction params k /\
    forall res : PostgrestResponse,
      (forall e, error res = Some e ->
         k res =
         Return
           (json
              (obj [("error", VStr ("Failed to create transaction: " +:+ message e))])
              500)) /\
      (forall outcome, error res = None -> data res = VObj outcome ->
         ToBoolean (prop outcome "success") = false ->
         k res = Return (json (obj [("error", prop outcome "error")]) 400)) /\
      (forall outcome, error res = None -> data res = VObj outcome ->
         ToBoolean (prop outcome "success") = true ->
         k res =
         Return
           (json
              (obj
                 [ ("success", VBool true);
                   ("message", VStr "Transaction created successfully");
                   ("data", obj [("id", prop outcome "transaction_id")]) ])
              200)).
Proof.
  intros Hvalid. eexists. eexists.
  split; [exact (POST_valid props ps Hvalid)|].
  intros res. cbv beta. unfold POST_reply.
  split; [|split].
  - intros e ->. reflexivity.
  - intros outcome -> -> Hs. cbn [get]. unfold not. rewrite Hs. reflexivity.
  - intros outcome -> -> Hs. cbn [get]. unfold not. rewrite Hs. reflexivity.
Qed.

Lemma C2_store_outcome_witness :
  exists params k,
    POST (request_with Sample.instalment []) = Rpc_add_transaction params k /\
    forall res : PostgrestResponse,
      (forall e, error res = Some e ->
         k res =
         Return
           (json
              (obj [("error", VStr ("Failed to create transaction: " +:+ message e))])
              500)) /\
      (forall outcome, error res = None -> data res = VObj outcome ->
         ToBoolean (prop outcome "success") = false ->
         k res = Return (json (obj [("error", prop outcome "error")]) 400)) /\
      (forall outcome, error res = None -> data res = VObj outcome ->
         ToBoolean (prop outcome "success") = true ->
         k res =
         Return
           (json
              (obj
                 [ ("success", VBool true);
                   ("message", VStr "Transaction created successfully");
                   ("data", obj [("id", prop outcome "transaction_id")]) ])
              200)).
Proof.
  apply (C2_store_outcome Sample.instalment []).
  reflexivity.
Defined.

(** A reply with neither an error nor data: reading [data.success] throws. *)
Example null_data_answer :
  try_catch (POST_reply {| data := VNull; error := None |}) = Return unexpected.
Proof. reflexivity. Qed.

(** ** The delete operation *)

(** The client the handler uses: [supabaseAdmin || supabase]. *)
Lemma DELETE_with_id (admin_available : bool) (request : Request) (id : string) :
  searchParams_get (searchParams request) "id" = Some id -> id <> "" ->
  DELETE admin_available request =
  Select_single (if admin_available then supabaseAdmin else supabase)
    selected_columns id
    (fun res =>
       try_catch
         (DELETE_fetched (if admin_available then supabaseAdmin else supabase) id res)).
Proof.
  intros Hid Hne. unfold DELETE. rewrite Hid.
  unfold not. cbn [string_or_null ToBoolean].
  destruct (String.eqb_spec id "") as [->|_]; [congruence | reflexivity].
Qed.

(** However the store tells that there is no such row, by an error or by
    null data, the handler answers 404 without a further call. *)
Lemma DELETE_fetched_absent (c : Client) (id : string) (res : PostgrestResponse) :
  error res <> None \/ ToBoolean (data res) = false ->
  exists msg,
    DELETE_fetched c id res = Return (json (obj [("error", VStr msg)]) 404).
Proof.
  intros H. unfold DELETE_fetched.
  destruct (error res) as [fetchError|] eqn:E.
  - eexists. reflexivity.
  - destruct H as [H|H]; [congruence|].
    unfold not. rewrite H. eexists. reflexivity.
Qed.

(** An id that is present but empty counts as no id. *)
Lemma DELETE_empty_id (admin_available : bool) (request : Request) :
  searchParams_get (searchParams request) "id" = Some "" ->
  DELETE admin_available request = Return id_required.
Proof. intros H. unfold DELETE. rewrite H. reflexivity. Qed.

(** C7: a delete request without an [id] query parameter is answered with
    status 400 and an error body, before any existence check or other
    store call. *)
Theorem C7_delete_without_id (admin_available : bool) (request : Request) :
  searchParams_get (searchParams request) "id" = None ->
  DELETE admin_available request =
    Return (json (obj [("error", VStr "Transaction ID is required")]) 400) /\
  (forall (S : Type) (st : Store S) (s : S),
     calls (exec st (DELETE admin_available request) s) = [] /\
     final (exec st (DELETE admin_available request) s) = s).
Proof.
  intros H.
  assert (E : DELETE admin_available request = Return id_required)
    by (unfold DELETE; rewrite H; reflexivity).
  split; [exact E|].
  intros S st s. rewrite E. split; reflexivity.
Qed.

Lemma C7_delete_without_id_witness :
  DELETE true {| json_body := None; searchParams := [("page", "2")] |} =
    Return (json (obj [("error", VStr "Transaction ID is required")]) 400) /\
  (forall (S : Type) (st : Store S) (s : S),
     calls (exec st
              (DELETE true {| json_body := None; searchParams := [("page", "2")] |}) s)
     = [] /\
     final (exec st
              (DELETE true {| json_body := None; searchParams := [("page", "2")] |}) s)
     = s).
Proof.
  apply (C7_delete_without_id true
           {| json_body := None; searchParams := [("page", "2")] |}).
  reflexivity.
Defined.

Section DeleteOnTable.

Variable no_rows : PostgrestError.
Variable rpc_get_all_transactions : nat -> ledger -> RowsResponse.
Variable rpc_add_transaction :
  AddTransactionParams -> ledger -> PostgrestResponse * ledger.

Let store := table_store no_rows rpc_get_all_transactions rpc_add_transaction.

(** C6: a delete request whose id names no row of the ledger is answered
    with status 404 and an error body; the existence check is the only
    store call of the run, no delete is issued, and the ledger is as it
    was. *)
Theorem C6_delete_unknown_id (admin_available : bool) (request : Request)
  (id : string) (t : ledger) :
  searchParams_get (searchParams request) "id" = Some id -> id <> "" ->
  t !! id = None ->
  error (select_single store (if admin_available then supabaseAdmin else supabase)
           selected_columns id t) = Some no_rows /\
  response (exec store (DELETE admin_available request) t) =
    Some
      (json (obj [("error", VStr ("Transaction not found: " +:+ message no_rows))])
         404) /\
  calls (exec store (DELETE admin_available request) t) =
    [Called_select_single (if admin_available then supabaseAdmin else supabase)
       selected_columns id] /\
  final (exec store (DELETE admin_available request) t) = t.
Proof.
  intros Hid Hne Habsent.
  rewrite (DELETE_with_id admin_available request id Hid Hne).
  cbn [exec store table_store select_single called response calls final].
  rewrite Habsent. cbn. repeat split; reflexivity.
Qed.

(** A known id is deleted: two calls, and the row is gone. *)
Lemma DELETE_known_id (admin_available : bool) (request : Request)
  (id : string) (t : ledger) (row : value) :
  searchParams_get (searchParams request) "id" = Some id -> id <> "" ->
  t !! id = Some row -> ToBoolean row = true ->
  response (exec store (DELETE admin_available request) t) =
    Some
      (json_ok
         (obj [ ("success", VBool true);
                ("message", VStr "Transaction deleted successfully") ])) /\
  calls (exec store (DELETE admin_available request) t) =
    [ Called_select_single (if admin_available then supabaseAdmin else supabase)
        selected_columns id;
      Called_delete_eq (if admin_available then supabaseAdmin else supabase) id ] /\
  final (exec store (DELETE admin_available request) t) = delete id t.
Proof.
  intros Hid Hne Hrow Htruthy.
  rewrite (DELETE_with_id admin_available request id Hid Hne).
  cbn [exec store table_store select_single called response calls final].
  rewrite Hrow. cbn [try_catch DELETE_fetched error data].
  unfold not. rewrite Htruthy. cbn. repeat split; reflexivity.
Qed.

End DeleteOnTable.

Lemma C6_delete_unknown_id_witness :
  error (select_single Sample.refusing_store supabase selected_columns "t-404"
           Sample.one_row) = Some Sample.no_rows /\
  response (exec Sample.refusing_store (DELETE false Sample.delete_unknown)
              Sample.one_row) =
    Some
      (json
         (obj [("error",
                 VStr ("Transaction not found: " +:+ message Sample.no_rows))])
         404) /\
  calls (exec Sample.refusing_store (DELETE false Sample.delete_unknown)
           Sample.one_row) =
    [Called_select_single supabase selected_columns "t-404"] /\
  final (exec Sample.refusing_store (DELETE false Sample.delete_unknown)
           Sample.one_row) = Sample.one_row.
Proof.
  apply (C6_delete_unknown_id Sample.no_rows
           (fun _ _ => {| rows := Some []; rowsError := None |})
           (fun _ t => (Sample.refused, t))
           false Sample.delete_unknown "t-404" Sample.one_row).
  - reflexivity.
  - discriminate.
  - reflexivity.
Defined.

(** ** End-to-end runs on the table store *)

(** Deleting the only row of the sample ledger empties it. *)
Example delete_known_run :
  final (exec Sample.refusing_store
           (DELETE true {| json_body := None; searchParams := [("id", "t-1")] |})
           Sample.one_row) = ∅.
Proof. reflexivity. Qed.

(** The three answers of [POST] to a reply of the store. *)
Example call_error_answer :
  try_catch (POST_reply {| data := VNull; error := Some Sample.no_rows |}) =
  Return
    (json
       (obj [("error",
               VStr "Failed to create transaction: JSON object requested, multiple (or no) rows returned")])
       500).
Proof. reflexivity. Qed.

Example refused_answer :
  try_catch (POST_reply Sample.refused) =
  Return (json (obj [("error", VStr "Saldo tidak mencukupi")]) 400).
Proof. reflexivity. Qed.

Example accepted_answer :
  try_catch
    (POST_reply
       {| data := obj [("success", VBool true); ("transaction_id", VStr "t-9")];
          error := None |}) =
  Return
    (json
       (obj [ ("success", VBool true);
              ("message", VStr "Transaction created successfully");
              ("data", obj [("id", VStr "t-9")]) ])
       200).
Proof. reflexivity. Qed.

(** * Further properties of the route *)

(** ** Every handler answers *)

(** A handler wrapped in its [try]/[catch] never ends without a response,
    and the wrapper adds no store call. *)
Lemma exec_try_catch_answers {S : Type} (st : Store S) (a : action) (s : S) :
  exists r, response (exec st (try_catch a) s) = Some r.
Proof.
  revert s. induction a as [r| |n k IH|p k IH|c cols i k IH|c i k IH]; intros s;
    cbn [try_catch exec].
  - now exists r.
  - now exists unexpected.
  - apply IH.
  - destruct (add_transaction st p s) as [res s']. apply IH.
  - apply IH.
  - destruct (delete_eq st c i s) as [res s']. apply IH.
Qed.

(** ** The list operation, further *)

(** X1: for every store whose reply has the shape the route declares (an
    error, or data that is null or an array of rows of type
    [TransactionRPCResult]), a run of [GET] issues exactly one call,
    [get_all_transactions] with limit 100, and answers: with status 500 and
    the store's message when the reply carries an error, with status 200
    and an array when it does not. *)
Theorem GET_run {S : Type} (st : Store S) (s : S) :
  calls (exec st GET s) = [Called_get_all_transactions 100] /\
  (forall e, rowsError (get_all_transactions st 100 s) = Some e ->
     response (exec st GET s) =
     Some (json (obj [("error", VStr (message e))]) 500)) /\
  (rowsError (get_all_transactions st 100 s) = None ->
     exists entries, response (exec st GET s) = Some (json (VArr entries) 200)).
Proof.
  unfold GET. cbn [try_catch exec called calls response].
  unfold GET_reply.
  destruct (rowsError (get_all_transactions st 100 s)) as [e|] eqn:E.
  - split; [reflexivity|]. split; [|discriminate].
    intros e' He'. injection He' as <-. reflexivity.
  - split; [reflexivity|]. split; [discriminate|].
    intros _. eexists. reflexivity.
Qed.

Lemma map_transform_ids (data : list TransactionRPCResult) :
  map (fun entry => get entry "id") (map transform data) =
  map (fun item => Some (VStr item.(Row.id))) data.
Proof.
  induction data as [|item data IH]; [reflexivity|].
  cbn [map]. rewrite IH. reflexivity.
Qed.

(** X2: [GET] lists one entry per row the store returns, in the store's
    order, and does not cut the list itself, however long it is; when the
    store returns no data at all (null) it lists the empty array, as for an
    empty list. *)
Theorem GET_lists_every_row :
  exists k,
    GET = Rpc_get_all_transactions 100 k /\
    (forall data : list TransactionRPCResult,
       exists entries,
         k {| rows := Some data; rowsError := None |} =
           Return (json (VArr entries) 200) /\
         length entries = length data /\
         map (fun entry => get entry "id") entries =
           map (fun item => Some (VStr item.(Row.id))) data) /\
    k {| rows := None; rowsError := None |} = Return (json (VArr []) 200) /\
    k {| rows := Some []; rowsError := None |} = Return (json (VArr []) 200).
Proof.
  eexists. split; [reflexivity|]. split; [|split; reflexivity].
  intros data. exists (map transform data).
  split; [reflexivity|]. split.
  - apply length_map.
  - apply map_transform_ids.
Qed.

Lemma Math_abs_idempotent (x : number) : Math_abs (Math_abs x) = Math_abs x.
Proof. destruct x; reflexivity. Qed.

Lemma Math_abs_nan (x : number) : Math_abs x = S754_nan <-> x = S754_nan.
Proof. destruct x; split; intros H; try reflexivity; discriminate. Qed.

(** X4: normalising the amount is idempotent: a row whose stored amount
    is replaced by the listed one is listed with the same amount. *)
Theorem listed_jumlah_idempotent (item : TransactionRPCResult) :
  exists x,
    get (transform item) "jumlah" = Some (VNum x) /\
    get (transform (Row.with_jumlah x item)) "jumlah" = Some (VNum x).
Proof.
  eexists. split; [apply transform_jumlah|].
  rewrite transform_jumlah.
  cbn [Row.with_jumlah Row.tipe_transaksi Row.jumlah].
  destruct (String.eqb item.(Row.tipe_transaksi) "masuk").
  - now rewrite Math_abs_idempotent.
  - now rewrite Math_abs_neg, Math_abs_idempotent.
Qed.

(** X5: only the exact string ["masuk"] counts as incoming.  A row with any
    other [tipe_transaksi] (["keluar"], but also ["Masuk"] or the empty
    string) is listed with [-|jumlah|].  Unless the stored amount is [NaN],
    the listed amount of an incoming row is not below zero and that of any
    other row is not above zero; a stored [NaN] is listed as [NaN]. *)
Theorem listed_jumlah_sign (item : TransactionRPCResult) :
  exists x,
    get (transform item) "jumlah" = Some (VNum x) /\
    (item.(Row.tipe_transaksi) = "masuk" -> item.(Row.jumlah) <> S754_nan ->
       SFleb (S754_zero false) x = true) /\
    (item.(Row.tipe_transaksi) <> "masuk" ->
       x = neg (Math_abs item.(Row.jumlah)) /\
       (item.(Row.jumlah) <> S754_nan -> SFleb x (S754_zero false) = true)) /\
    (x = S754_nan <-> item.(Row.jumlah) = S754_nan).
Proof.
  eexists. split; [apply transform_jumlah|].
  destruct (String.eqb_spec item.(Row.tipe_transaksi) "masuk") as [E|E].
  - split; [intros _; apply Math_abs_nonneg|].
    split; [intros H; contradiction|].
    apply Math_abs_nan.
  - split; [intros H; contradiction|].
    split.
    + intros _. split; [reflexivity | apply neg_Math_abs_nonpos].
    + destruct item.(Row.jumlah); split; intros H; try reflexivity; discriminate.
Qed.

Example capitalised_direction_is_outgoing :
  get (transform
         {| Row.id := "t-4"; Row.anggota_id := "a-1"; Row.tipe_transaksi := "Masuk";
            Row.source_type := None; Row.deskripsi := None;
            Row.jumlah := of_Z 700; Row.sebelum := of_Z 0; Row.sesudah := of_Z 700;
            Row.pembiayaan_id := None; Row.tabungan_id := None;
            Row.created_at := ""; Row.updated_at := "";
            Row.anggota_nama := None; Row.anggota_nomor_rekening := None;
            Row.tabungan_saldo := None; Row.tabungan_jenis_id := None;
            Row.tabungan_jenis_nama := None; Row.tabungan_jenis_kode := None;
            Row.pembiayaan_jumlah := None; Row.pembiayaan_sisa := None;
            Row.pembiayaan_jenis := None |}) "jumlah"
  = Some (VNum (of_Z (-700))).
Proof. reflexivity. Qed.

(** X6: inside a [tabungan] sub-object, [jenis_tabungan] is decided by the
    joined type name alone: null when [tabungan_jenis_nama] is null or
    empty, otherwise an object of the name and the code (which may be
    null); [saldo] and [jenis_tabungan_id] are the joined values, null
    included. *)
Theorem tabungan_nesting (item : TransactionRPCResult) (i : string) :
  item.(Row.tabungan_id) = Some i -> i <> "" ->
  exists o,
    get (transform item) "tabungan" = Some (VObj o) /\
    prop o "saldo" = number_or_null item.(Row.tabungan_saldo) /\
    prop o "jenis_tabungan_id" = string_or_null item.(Row.tabungan_jenis_id) /\
    (item.(Row.tabungan_jenis_nama) = None \/ item.(Row.tabungan_jenis_nama) = Some "" ->
       prop o "jenis_tabungan" = VNull) /\
    (forall nama, item.(Row.tabungan_jenis_nama) = Some nama -> nama <> "" ->
       prop o "jenis_tabungan" =
       obj [ ("nama", VStr nama);
             ("kode", string_or_null item.(Row.tabungan_jenis_kode)) ]).
Proof.
  intros Hi Hne. rewrite transform_tabungan, Hi.
  cbn [string_or_null ToBoolean].
  destruct (String.eqb_spec i "") as [->|_]; [congruence|]. cbn [negb].
  eexists. split; [reflexivity|].
  split; [reflexivity|]. split; [reflexivity|].
  change (prop _ "jenis_tabungan") with
    (if ToBoolean (string_or_null item.(Row.tabungan_jenis_nama))
     then obj [ ("nama", string_or_null item.(Row.tabungan_jenis_nama));
                ("kode", string_or_null item.(Row.tabungan_jenis_kode)) ]
     else VNull).
  split.
  - intros H. apply ToBoolean_string_or_null in H. now rewrite H.
  - intros nama -> Hnama. cbn [string_or_null ToBoolean].
    destruct (String.eqb_spec nama "") as [->|_]; [congruence | reflexivity].
Qed.

Lemma tabungan_nesting_witness :
  exists o,
    get (transform Sample.withdrawal) "tabungan" = Some (VObj o) /\
    prop o "saldo" = number_or_null (Row.tabungan_saldo Sample.withdrawal) /\
    prop o "jenis_tabungan_id" =
      string_or_null (Row.tabungan_jenis_id Sample.withdrawal) /\
    (Row.tabungan_jenis_nama Sample.withdrawal = None \/
     Row.tabungan_jenis_nama Sample.withdrawal = Some "" ->
       prop o "jenis_tabungan" = VNull) /\
    (forall nama, Row.tabungan_jenis_nama Sample.withdrawal = Some nama ->
       nama <> "" ->
       prop o "jenis_tabungan" =
       obj [ ("nama", VStr nama);
             ("kode", string_or_null (Row.tabungan_jenis_kode Sample.withdrawal)) ]).
Proof.
  apply (tabungan_nesting Sample.withdrawal "s-1").
  - reflexivity.
  - discriminate.
Defined.

(** ** The create operation, further *)

Lemma first_missing_None (props : gmap string value) (fields : list string) :
  first_missing props fields = None ->
  forallb (fun field => ToBoolean (prop props field)) fields = true.
Proof.
  intros H. apply forallb_forall. intros field Hin.
  pose proof (List.find_none _ _ H field Hin) as Hn.
  unfold not in Hn. now apply negb_false_iff in Hn.
Qed.

(** A body that fails validation is answered with status 400 at once. *)
Lemma POST_invalid (props : gmap string value) (ps : list (string * string)) :
  passes_validation props = false ->
  exists msg,
    POST (request_with props ps) = Return (json (obj [("error", VStr msg)]) 400).
Proof.
  intros H.
  destruct (first_missing props requiredFields) as [named|] eqn:Hm.
  - eexists. rewrite (POST_missing _ ps _ Hm). reflexivity.
  - unfold passes_validation in H.
    rewrite (first_missing_None _ _ Hm), andb_true_l in H.
    apply negb_false_iff in H.
    unfold POST, request_with, POST_body. cbn [json_body].
    rewrite for_each_required_obj, Hm. cbn [get]. rewrite H.
    eexists. reflexivity.
Qed.

(** X7: for a JSON object body, [POST] calls the store exactly when the
    body passes validation; a body that does not is answered with status
    400 and an error message, without a store call.  Nothing else is
    checked: not the type of a field, not the sign of the amount, not the
    value of [tipe_transaksi] or [source_type]. *)
Theorem POST_calls_store_iff_valid (props : gmap string value)
  (ps : list (string * string)) :
  (passes_validation props = true /\
   exists params k, POST (request_with props ps) = Rpc_add_transaction params k) \/
  (passes_validation props = false /\
   exists msg,
     POST (request_with props ps) = Return (json (obj [("error", VStr msg)]) 400)).
Proof.
  destruct (passes_validation props) eqn:H.
  - left. split; [reflexivity|]. eexists. eexists. exact (POST_valid props ps H).
  - right. split; [reflexivity|]. exact (POST_invalid props ps H).
Qed.

Example negative_text_amount_reaches_store :
  passes_validation
    (<["jumlah" := VStr "-5"]> (<["tipe_transaksi" := VStr "?"]> Sample.instalment))
  = true.
Proof. reflexivity. Qed.

(** X8: a body that is not a JSON object never reaches the store.  When
    the body cannot be parsed, or is [null], the handler answers with the
    generic status 500; when it is a boolean, a number, a string or an
    array, it answers with status 400 for the first required field. *)
Theorem POST_body_not_an_object (ps : list (string * string)) :
  POST {| json_body := None; searchParams := ps |} = Return unexpected /\
  POST {| json_body := Some VNull; searchParams := ps |} = Return unexpected /\
  (forall b, POST {| json_body := Some (VBool b); searchParams := ps |} =
             Return (field_required "anggota_id")) /\
  (forall x, POST {| json_body := Some (VNum x); searchParams := ps |} =
             Return (field_required "anggota_id")) /\
  (forall s, POST {| json_body := Some (VStr s); searchParams := ps |} =
             Return (field_required "anggota_id")) /\
  (forall xs, POST {| json_body := Some (VArr xs); searchParams := ps |} =
              Return (field_required "anggota_id")) /\
  status unexpected = 500 /\ status (field_required "anggota_id") = 400.
Proof. repeat split. Qed.

(** X9: the arguments of [add_transaction] for a body that passes
    validation.  The four required fields are handed over as they are, and
    none of them is falsy.  Each optional argument is either the body's
    value, then not falsy, or null: an empty description, a missing savings
    type or loan reference reach the store as null, never as [undefined] or
    as an empty string.  When the source is ["tabungan"] the savings type is
    not null. *)
Theorem POST_arguments (props : gmap string value) (ps : list (string * string)) :
  passes_validation props = true ->
  exists params k,
    POST (request_with props ps) = Rpc_add_transaction params k /\
    (p_anggota_id params = prop props "anggota_id" /\
     p_tipe_transaksi params = prop props "tipe_transaksi" /\
     p_source_type params = prop props "source_type" /\
     p_jumlah params = prop props "jumlah") /\
    (ToBoolean (p_anggota_id params) = true /\
     ToBoolean (p_tipe_transaksi params) = true /\
     ToBoolean (p_source_type params) = true /\
     ToBoolean (p_jumlah params) = true) /\
    (p_deskripsi params = VNull \/
     p_deskripsi params = prop props "deskripsi" /\
     ToBoolean (p_deskripsi params) = true) /\
    (p_jenis_tabungan_id params = VNull \/
     p_jenis_tabungan_id params = prop props "jenis_tabungan_id" /\
     ToBoolean (p_jenis_tabungan_id params) = true) /\
    (p_pembiayaan_id params = VNull \/ ToBoolean (p_pembiayaan_id params) = true) /\
    (p_source_type params = VStr "tabungan" ->
     ToBoolean (p_jenis_tabungan_id params) = true).
Proof.
  intros Hvalid. eexists. eexists.
  split; [exact (POST_valid props ps Hvalid)|].
  cbn [p_anggota_id p_tipe_transaksi p_source_type p_jumlah p_deskripsi
       p_jenis_tabungan_id p_pembiayaan_id].
  unfold passes_validation in Hvalid.
  apply andb_true_iff in Hvalid as [Hreq Hsav].
  cbn [forallb requiredFields] in Hreq.
  repeat (apply andb_true_iff in Hreq as [? Hreq]).
  split; [repeat split|]. split; [repeat split; assumption|].
  unfold or.
  split; [destruct (ToBoolean (prop props "deskripsi")) eqn:E; auto|].
  split; [destruct (ToBoolean (prop props "jenis_tabungan_id")) eqn:E; auto|].
  split.
  - destruct (ToBoolean (prop props "pembiayaan_id")) eqn:E1; rewrite ?E1; auto.
    destruct (ToBoolean (prop props "pinjaman_id")) eqn:E2; rewrite ?E2; auto.
  - intros Hsrc. rewrite Hsrc in Hsav. cbn [strict_eq_string] in Hsav.
    rewrite String.eqb_refl, andb_true_l in Hsav.
    unfold not in Hsav. rewrite negb_involutive in Hsav.
    rewrite Hsav. exact Hsav.
Qed.

Lemma POST_arguments_witness :
  exists params k,
    POST (request_with Sample.instalment []) = Rpc_add_transaction params k /\
    (p_anggota_id params = prop Sample.instalment "anggota_id" /\
     p_tipe_transaksi params = prop Sample.instalment "tipe_transaksi" /\
     p_source_type params = prop Sample.instalment "source_type" /\
     p_jumlah params = prop Sample.instalment "jumlah") /\
    (ToBoolean (p_anggota_id params) = true /\
     ToBoolean (p_tipe_transaksi params) = true /\
     ToBoolean (p_source_type params) = true /\
     ToBoolean (p_jumlah params) = true) /\
    (p_deskripsi params = VNull \/
     p_deskripsi params = prop Sample.instalment "deskripsi" /\
     ToBoolean (p_deskripsi params) = true) /\
    (p_jenis_tabungan_id params = VNull \/
     p_jenis_tabungan_id params = prop Sample.instalment "jenis_tabungan_id" /\
     ToBoolean (p_jenis_tabungan_id params) = true) /\
    (p_pembiayaan_id params = VNull \/ ToBoolean (p_pembiayaan_id params) = true) /\
    (p_source_type params = VStr "tabungan" ->
     ToBoolean (p_jenis_tabungan_id params) = true).
Proof.
  apply (POST_arguments Sample.instalment []).
  reflexivity.
Defined.

Example savings_deposit_arguments :
  fst (run_POST (<["jenis_tabungan_id" := VStr "j-1"]>
                   (<["deskripsi" := VStr ""]> Sample.savings_without_type))
         Sample.refusing_store) =
  [ Called_add_transaction
      {| p_anggota_id := VStr "a-1";
         p_tipe_transaksi := VStr "masuk";
         p_source_type := VStr "tabungan";
         p_jumlah := VNum (of_Z 1000);
         p_deskripsi := VNull;
         p_jenis_tabungan_id := VStr "j-1";
         p_pembiayaan_id := VNull |} ].
Proof. reflexivity. Qed.

(** [POST] reads the body through eight properties only. *)
Lemma POST_reads_fields (props props' : gmap string value)
  (ps ps' : list (string * string)) :
  (forall k, In k POST_fields -> props !! k = props' !! k) ->
  POST (request_with props ps) = POST (request_with props' ps').
Proof.
  intros H.
  assert (Hp : forall k, In k POST_fields -> prop props k = prop props' k)
    by (intros k Hk; unfold prop; now rewrite (H k Hk)).
  unfold POST_fields in Hp. cbn [In] in Hp.
  unfold POST, request_with, POST_body. cbn [json_body].
  rewrite !for_each_required_obj.
  unfold first_missing, requiredFields, add_transaction_params.
  cbn [List.find get mbind option_bind].
  rewrite (Hp "anggota_id"), (Hp "tipe_transaksi"), (Hp "source_type"),
    (Hp "jumlah"), (Hp "deskripsi"), (Hp "jenis_tabungan_id"),
    (Hp "pembiayaan_id"), (Hp "pinjaman_id") by tauto.
  reflexivity.
Qed.

(** X10: [POST] ignores everything in the request but eight properties of
    the body: two requests whose bodies agree on them get the same
    treatment, whatever else the bodies hold (an [id], balances, a date)
    and whatever the query string is. *)
Theorem POST_ignores_other_fields (props props' : gmap string value)
  (ps ps' : list (string * string)) :
  (forall k, In k POST_fields -> props !! k = props' !! k) ->
  POST (request_with props ps) = POST (request_with props' ps') /\
  (forall (S : Type) (st : Store S) (s : S),
     exec st (POST (request_with props ps)) s =
     exec st (POST (request_with props' ps')) s).
Proof.
  intros H. pose proof (POST_reads_fields props props' ps ps' H) as E.
  split; [exact E|]. intros S st s. now rewrite E.
Qed.

Lemma POST_ignores_other_fields_witness :
  POST (request_with Sample.instalment []) =
  POST (request_with
          (<["id" := VStr "t-1"]> (<["sesudah" := VNum (of_Z 5)]> Sample.instalment))
          [("id", "t-1")]) /\
  (forall (S : Type) (st : Store S) (s : S),
     exec st (POST (request_with Sample.instalment [])) s =
     exec st
       (POST (request_with
                (<["id" := VStr "t-1"]>
                   (<["sesudah" := VNum (of_Z 5)]> Sample.instalment))
                [("id", "t-1")])) s).
Proof.
  apply (POST_ignores_other_fields Sample.instalment
           (<["id" := VStr "t-1"]> (<["sesudah" := VNum (of_Z 5)]> Sample.instalment))
           [] [("id", "t-1")]).
  intros k Hk. unfold POST_fields in Hk. cbn [In] in Hk.
  repeat (destruct Hk as [<-|Hk]; [reflexivity|]). destruct Hk.
Defined.

(** The store's reply is "a success": no error, and a truthy [data.success]. *)
Lemma POST_reply_cases (res : PostgrestResponse) :
  exists r,
    try_catch (POST_reply res) = Return r /\
    (status r = 200 \/ status r = 400 \/ status r = 500) /\
    (status r = 200 <->
     error res = None /\
     exists success, get (data res) "success" = Some success /\
                     ToBoolean success = true).
Proof.
  unfold POST_reply.
  destruct (error res) as [e|] eqn:E.
  { eexists. split; [reflexivity|]. split; [auto|].
    cbn [status json]. split; [discriminate | intros [H _]; discriminate]. }
  destruct (data res) as [| |b|x|str|xs|outcome] eqn:D; cbn [get try_catch].
  1,2: eexists; split; [reflexivity|]; split; [auto|];
       cbn [status unexpected json]; split;
       [discriminate | intros [_ (success & H & _)]; discriminate].
  1,2,3,4: eexists; split; [reflexivity|]; split; [auto|];
           cbn [status json]; split;
           [discriminate | intros [_ (success & H & Ht)];
                           injection H as <-; discriminate].
  unfold not.
  destruct (ToBoolean (prop outcome "success")) eqn:Hs; cbn [negb try_catch];
    eexists; (split; [reflexivity|]); (split; [auto|]); cbn [status json json_ok].
  - split; [|reflexivity]. intros _. split; [reflexivity|]. eauto.
  - split; [discriminate|]. intros [_ (success & H & Ht)].
    injection H as <-. congruence.
Qed.

(** What [POST] does before any reply: it answers, or it calls the store. *)
Lemma POST_cases (request : Request) :
  (exists r, POST request = Return r /\ (status r = 400 \/ status r = 500)) \/
  (exists params,
     POST request = Rpc_add_transaction params (fun res => try_catch (POST_reply res))).
Proof.
  destruct request as [[body|] ps]; [|left; eexists; split; [reflexivity | now right]].
  destruct body as [| |b|x|str|xs|props];
    try (left; eexists; split; [reflexivity | cbn; auto]).
  destruct (passes_validation props) eqn:H.
  - right. eexists. exact (POST_valid props ps H).
  - left. destruct (POST_invalid props ps H) as [msg Hmsg].
    eexists. split; [exact Hmsg | now left].
Qed.

(** X11: every run of [POST], on any request and any store, answers, with
    status 200, 400 or 500.  Either no store call is made, the store is as
    it was and the status is not 200; or the only call is one
    [add_transaction], and the status is 200 exactly when the store
    replies without an error and with a truthy [data.success]. *)
Theorem POST_run {S : Type} (st : Store S) (request : Request) (s : S) :
  exists r,
    response (exec st (POST request) s) = Some r /\
    (status r = 200 \/ status r = 400 \/ status r = 500) /\
    ((calls (exec st (POST request) s) = [] /\
      final (exec st (POST request) s) = s /\
      status r <> 200) \/
     (exists params,
        calls (exec st (POST request) s) = [Called_add_transaction params] /\
        final (exec st (POST request) s) = snd (add_transaction st params s) /\
        (status r = 200 <->
         error (fst (add_transaction st params s)) = None /\
         exists success,
           get (data (fst (add_transaction st params s))) "success" = Some success /\
           ToBoolean success = true))).
Proof.
  destruct (POST_cases request) as [(r & E & Hst)|(params & E)]; rewrite E.
  - exists r. cbn [exec response calls final].
    split; [reflexivity|]. split; [destruct Hst; auto|].
    left. repeat split. destruct Hst as [H|H]; rewrite H; discriminate.
  - cbn [exec]. destruct (add_transaction st params s) as [res s'] eqn:Ea.
    destruct (POST_reply_cases res) as (r & Er & Hst & Hok).
    rewrite Er. cbn [exec called response calls final fst snd].
    exists r. split; [reflexivity|]. split; [exact Hst|].
    right. exists params. rewrite Ea. cbn [fst snd].
    split; [reflexivity|]. split; [reflexivity | exact Hok].
Qed.

(** ** The delete operation, further *)



Section DeleteOnTableFurther.

Variable no_rows : PostgrestError.
Variable rpc_get_all_transactions : nat -> ledger -> RowsResponse.
Variable rpc_add_transaction :
  AddTransactionParams -> ledger -> PostgrestResponse * ledger.

Let store := table_store no_rows rpc_get_all_transactions rpc_add_transaction.

(** On the table store, an id without a row: 404, and the table is kept. *)
Lemma DELETE_unknown_on_table (admin_available : bool) (request : Request)
  (id : string) (t : ledger) :
  searchParams_get (searchParams request) "id" = Some id -> id <> "" ->
  t !! id = None ->
  (status <$> response (exec store (DELETE admin_available request) t)) = Some 404 /\
  final (exec store (DELETE admin_available request) t) = t.
Proof.
  intros Hid Hne Habsent.
  rewrite (DELETE_with_id admin_available request id Hid Hne).
  cbn [exec store table_store select_single called response calls final].
  rewrite Habsent. split; reflexivity.
Qed.

(** X13: deleting a row that exists answers 200 and removes exactly that
    row: afterwards the id has no row, and every other row of the ledger
    is as before. *)
Theorem DELETE_removes_only_that_row (admin_available : bool) (request : Request)
  (id : string) (t : ledger) (row : value) :
  searchParams_get (searchParams request) "id" = Some id -> id <> "" ->
  t !! id = Some row -> ToBoolean row = true ->
  (status <$> response (exec store (DELETE admin_available request) t)) = Some 200 /\
  final (exec store (DELETE admin_available request) t) !! id = None /\
  (forall other, other <> id ->
     final (exec store (DELETE admin_available request) t) !! other = t !! other).
Proof.
  intros Hid Hne Hrow Htruthy.
  destruct (DELETE_known_id no_rows rpc_get_all_transactions rpc_add_transaction
              admin_available request id t row Hid Hne Hrow Htruthy)
    as (Hr & _ & Hf).
  fold store in Hr, Hf. rewrite Hr, Hf.
  split; [reflexivity|]. split; [apply lookup_delete_eq|].
  intros other Hother. apply lookup_delete_ne. congruence.
Qed.

(** X14: deleting the same row twice: the first request answers 200, the
    second, run on the ledger the first one left, answers 404 and leaves
    that ledger as it is. *)
Theorem DELETE_twice (admin_available : bool) (request : Request)
  (id : string) (t : ledger) (row : value) :
  searchParams_get (searchParams request) "id" = Some id -> id <> "" ->
  t !! id = Some row -> ToBoolean row = true ->
  let t' := final (exec store (DELETE admin_available request) t) in
  (status <$> response (exec store (DELETE admin_available request) t)) = Some 200 /\
  (status <$> response (exec store (DELETE admin_available request) t')) = Some 404 /\
  final (exec store (DELETE admin_available request) t') = t'.
Proof.
  intros Hid Hne Hrow Htruthy t'.
  destruct (DELETE_known_id no_rows rpc_get_all_transactions rpc_add_transaction
              admin_available request id t row Hid Hne Hrow Htruthy)
    as (Hr & _ & Hf).
  fold store in Hr, Hf. subst t'. rewrite Hr, Hf.
  split; [reflexivity|].
  apply (DELETE_unknown_on_table admin_available request id);
    [exact Hid | exact Hne | apply lookup_delete_eq].
Qed.

End DeleteOnTableFurther.

Lemma DELETE_removes_only_that_row_witness :
  (status <$> response (exec Sample.refusing_store (DELETE true Refusal.delete_known)
                          Sample.one_row)) = Some 200 /\
  final (exec Sample.refusing_store (DELETE true Refusal.delete_known)
           Sample.one_row) !! "t-1" = None /\
  (forall other, other <> "t-1" ->
     final (exec Sample.refusing_store (DELETE true Refusal.delete_known)
              Sample.one_row) !! other = Sample.one_row !! other).
Proof.
  apply (DELETE_removes_only_that_row Sample.no_rows
           (fun _ _ => {| rows := Some []; rowsError := None |})
           (fun _ t => (Sample.refused, t))
           true Refusal.delete_known "t-1" Sample.one_row
           (obj [("id", VStr "t-1")])).
  - reflexivity.
  - discriminate.
  - reflexivity.
  - reflexivity.
Defined.

Lemma DELETE_twice_witness :
  (status <$> response (exec Sample.refusing_store (DELETE true Refusal.delete_known)
                          Sample.one_row)) = Some 200 /\
  (status <$> response
     (exec Sample.refusing_store (DELETE true Refusal.delete_known)
        (final (exec Sample.refusing_store (DELETE true Refusal.delete_known)
                  Sample.one_row)))) = Some 404 /\
  final
    (exec Sample.refusing_store (DELETE true Refusal.delete_known)
       (final (exec Sample.refusing_store (DELETE true Refusal.delete_known)
                 Sample.one_row))) =
  final (exec Sample.refusing_store (DELETE true Refusal.delete_known)
           Sample.one_row).
Proof.
  apply (DELETE_twice Sample.no_rows
           (fun _ _ => {| rows := Some []; rowsError := None |})
           (fun _ t => (Sample.refused, t))
           true Refusal.delete_known "t-1" Sample.one_row
           (obj [("id", VStr "t-1")])).
  - reflexivity.
  - discriminate.
  - reflexivity.
  - reflexivity.
Defined.

(** X15: when the lookup finds the row but the store refuses the delete,
    the handler answers 500 with [Failed to delete transaction: ] followed
    by the store's message, and hands on the store's [details], [hint] and
    [code] as they are; it has issued one lookup and one delete, and does
    not try again. *)
Theorem DELETE_refused {S : Type} (st : Store S) (admin_available : bool)
  (request : Request) (id : string) (s : S) (e : PostgrestError) :
  searchParams_get (searchParams request) "id" = Some id -> id <> "" ->
  error (select_single st (if admin_available then supabaseAdmin else supabase)
           selected_columns id s) = None ->
  ToBoolean
    (data (select_single st (if admin_available then supabaseAdmin else supabase)
             selected_columns id s)) = true ->
  deleteError
    (fst (delete_eq st (if admin_available then supabaseAdmin else supabase) id s))
    = Some e ->
  response (exec st (DELETE admin_available request) s) =
    Some
      (json
         (obj
            [ ("error", VStr ("Failed to delete transaction: " +:+ message e));
              ("details", details e);
              ("hint", hint e);
              ("code", code e) ])
         500) /\
  calls (exec st (DELETE admin_available request) s) =
    [ Called_select_single (if admin_available then supabaseAdmin else supabase)
        selected_columns id;
      Called_delete_eq (if admin_available then supabaseAdmin else supabase) id ] /\
  final (exec st (DELETE admin_available request) s) =
    snd (delete_eq st (if admin_available then supabaseAdmin else supabase) id s).
Proof.
  intros Hid Hne Hfetch Hdata Hdel.
  rewrite (DELETE_with_id admin_available request id Hid Hne).
  cbn [exec called response calls final].
  unfold DELETE_fetched. rewrite Hfetch. unfold not. rewrite Hdata.
  cbn [negb try_catch exec].
  destruct (delete_eq st _ id s) as [res s'].
  cbn [fst snd] in Hdel |- *. unfold DELETE_reply. rewrite Hdel.
  repeat split.
Qed.

Lemma DELETE_refused_witness :
  response (exec Refusal.store (DELETE false Refusal.delete_known) Sample.one_row) =
    Some
      (json
         (obj
            [ ("error",
                VStr ("Failed to delete transaction: "
                        +:+ message Refusal.foreign_key));
              ("details", details Refusal.foreign_key);
              ("hint", hint Refusal.foreign_key);
              ("code", code Refusal.foreign_key) ])
         500) /\
  calls (exec Refusal.store (DELETE false Refusal.delete_known) Sample.one_row) =
    [ Called_select_single supabase selected_columns "t-1";
      Called_delete_eq supabase "t-1" ] /\
  final (exec Refusal.store (DELETE false Refusal.delete_known) Sample.one_row) =
    snd (delete_eq Refusal.store supabase "t-1" Sample.one_row).
Proof.
  apply (DELETE_refused Refusal.store false Refusal.delete_known "t-1"
           Sample.one_row Refusal.foreign_key).
  - reflexivity.
  - discriminate.
  - reflexivity.
  - reflexivity.
  - reflexivity.
Defined.

(** X16: an [id] parameter that is present but empty is treated as a
    missing one: status 400, no lookup, no store call. *)
Theorem DELETE_with_empty_id {S : Type} (st : Store S) (admin_available : bool)
  (request : Request) (s : S) :
  searchParams_get (searchParams request) "id" = Some "" ->
  response (exec st (DELETE admin_available request) s) =
    Some (json (obj [("error", VStr "Transaction ID is required")]) 400) /\
  calls (exec st (DELETE admin_available request) s) = [] /\
  final (exec st (DELETE admin_available request) s) = s.
Proof.
  intros H. rewrite (DELETE_empty_id admin_available request H).
  repeat split.
Qed.

Lemma DELETE_with_empty_id_witness :
  response
    (exec Sample.refusing_store
       (DELETE true {| json_body := None; searchParams := [("id", "")] |})
       Sample.one_row) =
    Some (json (obj [("error", VStr "Transaction ID is required")]) 400) /\
  calls
    (exec Sample.refusing_store
       (DELETE true {| json_body := None; searchParams := [("id", "")] |})
       Sample.one_row) = [] /\
  final
    (exec Sample.refusing_store
       (DELETE true {| json_body := None; searchParams := [("id", "")] |})
       Sample.one_row) = Sample.one_row.
Proof.
  apply (DELETE_with_empty_id Sample.refusing_store true
           {| json_body := None; searchParams := [("id", "")] |} Sample.one_row).
  reflexivity.
Defined.
